(** * stm32plus: the USB CDC device base class

    A shallow embedding of [lib/include/usb/device/cdc/CdcDevice.h]:
    the members of [CdcDevice], its [initialise], its event handler
    [onEvent] and the class setup handler [onCdcSetup].

    Integers are [Z]; a store into a narrower C++ member is written out
    with [wrap8].  The calls the class makes to the USB stack and to the
    event sender are collected, in program order, in a trace of [Call]s. *)

From Stdlib Require Import ZArith List Bool Lia.
From stdpp Require Import base list.
Import ListNotations.

Local Open Scope Z_scope.

(** ** Machine integers *)

(** The value kept by a [uint8_t] member when a wider value is stored. *)
Definition wrap8 (x : Z) : Z := x mod 2 ^ 8.

Definition is_uint8 (x : Z) : Prop := 0 <= x < 2 ^ 8.
Definition is_uint16 (x : Z) : Prop := 0 <= x < 2 ^ 16.

(** ** Data *)

(** The members of the setup packet that [onCdcSetup] reads:
    [uint8_t bmRequest], [uint8_t bRequest], [uint16_t wLength]. *)
Record USBD_SetupReqTypedef := {
  bmRequest : Z;
  bRequest : Z;
  wLength : Z
}.

(** The values a setup packet can hold. *)
Definition wf_request (r : USBD_SetupReqTypedef) : Prop :=
  is_uint8 (bmRequest r) /\ is_uint8 (bRequest r) /\ is_uint16 (wLength r).

(** [enum { MAX_COMMAND_EP_PACKET_SIZE = 16 }] *)
Definition MAX_COMMAND_EP_PACKET_SIZE : Z := 16.

(** The [uint8_t *] values this class hands out: [nullptr], or the start
    of the member array [_commandBuffer[MAX_COMMAND_EP_PACKET_SIZE]]. *)
Inductive Pointer :=
| nullptr
| commandBuffer_ptr.

(** Number of bytes of storage behind a pointer. *)
Definition capacity (p : Pointer) : Z :=
  match p with
  | nullptr => 0
  | commandBuffer_ptr => MAX_COMMAND_EP_PACKET_SIZE
  end.

(** [CdcControlEvent(opcode, data, size)], as constructed at the call
    sites: the three constructor arguments. *)
Record CdcControlEvent := {
  opcode : Z;
  data : Pointer;
  size : Z
}.

(** The upstream initialisers called by [initialise], by position: the
    base [Device], the [ControlEndpointFeature], the n-th member of the
    [Features...] pack. *)
Inductive Upstream :=
| Device_
| ControlEndpointFeature_
| Feature_ (n : nat).

(** What the class calls outside of itself; an upstream [initialise] is
    logged with the value it returned. *)
Inductive Call :=
| upstream_initialise (u : Upstream) (returned : bool)
| USBD_RegisterClass
| USBD_LL_OpenEP (ep_addr ep_type ep_mps : Z)
| USBD_LL_CloseEP (ep_addr : Z)
| raiseEvent (e : CdcControlEvent)
| USBD_CtlSendData (pbuf : Pointer) (len : Z)
| USBD_CtlPrepareRx (pbuf : Pointer) (len : Z).

(** The members of [EndpointDescriptor] that this class assigns.  Their
    declarations are outside of this file: a member holds the value
    assigned to it. *)
Record EndpointDescriptor := {
  bEndpointAddress : Z;
  bmAttributes : Z;
  wMaxPacketSize : Z;
  bInterval : Z
}.

(** The events [onEvent] receives.  [UsbEventDescriptor::EventType] is
    declared outside of this file; the handler names three of its
    enumerators, every other one is [OTHER_EVENT] with its value.  A
    [CLASS_SETUP] event is a [DeviceClassSdkSetupEvent] and carries the
    setup packet. *)
Inductive UsbEventDescriptor :=
| CLASS_INIT
| CLASS_DEINIT
| CLASS_SETUP (request : USBD_SetupReqTypedef)
| OTHER_EVENT (eventType : Z).

(** ** A state monad that logs calls

    A computation takes the state and gives a value, the new state and
    the calls it made. *)

Definition M (S : Type) (A : Type) : Type := S -> A * S * list Call.

#[global] Instance M_ret {S} : MRet (M S) := fun A a s => (a, s, []).

#[global] Instance M_bind {S} : MBind (M S) := fun A B k m s =>
  let '(a, s1, t1) := m s in
  let '(b, s2, t2) := k a s1 in
  (b, s2, t1 ++ t2).

Definition modify {S} (f : S -> S) : M S unit := fun s => (tt, f s, []).
Definition call {S} (c : Call) : M S unit := fun s => (tt, s, [c]).

(** C++ [!a] and the short-circuit [a || b] on calls with effects. *)
Definition not_ {S} (a : M S bool) : M S bool := x ← a; mret (negb x).
Definition or_else {S} (a b : M S bool) : M S bool :=
  x ← a; if (x : bool) then mret true else b.

(** The value returned, the state left and the calls made by a run. *)
Definition result {S A} (r : A * S * list Call) : A := fst (fst r).
Definition final {S A} (r : A * S * list Call) : S := snd (fst r).
Definition calls {S A} (r : A * S * list Call) : list Call := snd r.

(** ** Vocabulary of the properties *)

(** Bit 7 of [bmRequest]: the direction of the data stage. *)
Definition device_to_host (request : USBD_SetupReqTypedef) : Prop :=
  Z.land (bmRequest request) 0x80 <> 0.
Definition host_to_device (request : USBD_SetupReqTypedef) : Prop :=
  Z.land (bmRequest request) 0x80 = 0.

(** The notification events among the calls, in order. *)
Definition events_of (t : list Call) : list CdcControlEvent :=
  flat_map (fun c => match c with raiseEvent e => [e] | _ => [] end) t.

(** The control endpoint's data primitives: send and arm-receive. *)
Definition is_endpoint_io (c : Call) : bool :=
  match c with
  | USBD_CtlSendData _ _ | USBD_CtlPrepareRx _ _ => true
  | _ => false
  end.

(** A data primitive stays within the storage it is given. *)
Definition within_capacity (c : Call) : Prop :=
  match c with
  | USBD_CtlSendData pbuf len | USBD_CtlPrepareRx pbuf len => len <= capacity pbuf
  | _ => True
  end.

(** The upstream initialisers of a device with [n] features, in the
    order of the condition of [initialise]. *)
Definition all_upstreams (n : nat) : list Upstream :=
  Device_ :: ControlEndpointFeature_ :: map Feature_ (seq 0 n).

Definition succeeded (u : Upstream) : Call := upstream_initialise u true.
Definition failed (u : Upstream) : Call := upstream_initialise u false.

(** The calls of a short-circuit conjunction over [ups]: all of them
    succeed, or the first [k] succeed, the next fails and is the last. *)
Definition short_circuit (ups : list Upstream) (ok : bool) (t : list Call) : Prop :=
  if ok then t = map succeeded ups
  else exists k u, ups !! k = Some u /\ t = map succeeded (take k ups) ++ [failed u].

Arguments short_circuit : simpl never.

Section CdcDevice.

(** Constants of the USB stack ([usbd_def.h]) and of
    [EndpointDescriptor], declared outside of this file. *)
Variables USB_REQ_TYPE_MASK USB_REQ_TYPE_CLASS : Z.
Variables EndpointDescriptor_IN EndpointDescriptor_INTERRUPT : Z.

(** The rest of [TConfigurationDescriptor], which this class never names. *)
Variable TOther : Type.

(** The [Parameters] bases: [Device<TPhy>::Parameters] and the others. *)
Variable UpstreamParameters : Type.

Record ConfigurationDescriptor := {
  commandEndpoint : EndpointDescriptor;
  otherDescriptors : TOther
}.

(** [struct Parameters : ... { uint8_t cdc_cmd_poll_interval; }] *)
Record Parameters := {
  upstream : UpstreamParameters;
  cdc_cmd_poll_interval : Z
}.

(** [Parameters() { cdc_cmd_poll_interval=16; }] *)
Definition Parameters_ctor (up : UpstreamParameters) : Parameters :=
  {| upstream := up; cdc_cmd_poll_interval := 16 |}.

(** The data members of [CdcDevice]. *)
Record CdcDevice := {
  _configurationDescriptor : ConfigurationDescriptor;
  _opCode : Z;
  _commandSize : Z;
  _commandBuffer : list Z
}.

(** [enum { COMMAND_EP_ADDRESS = EndpointDescriptor::IN | 1 }] *)
Definition COMMAND_EP_ADDRESS : Z := Z.lor EndpointDescriptor_IN 1.

(** *** The event sender

    [raiseEvent] runs the subscribers before it returns.  What they can
    reach of this object is the storage the event points to:
    [subscribers e buf] lists their stores [data[i]=v], in order, for
    the event [e] and the buffer contents [buf] they find.  A store past
    the end of the array is outside of this model and is dropped by the
    list update.  [onEvent] of this class is a subscriber too: for it a
    [CdcControlEvent] is an event of another type, which it ignores. *)
Variable subscribers : CdcControlEvent -> list Z -> list (nat * Z).

Definition store (buf : list Z) (w : nat * Z) : list Z :=
  <[fst w := wrap8 (snd w)]> buf.

Definition populate (e : CdcControlEvent) (buf : list Z) : list Z :=
  fold_left store (subscribers e buf) buf.

Definition set_commandBuffer (b : list Z) (d : CdcDevice) : CdcDevice :=
  {| _configurationDescriptor := _configurationDescriptor d;
     _opCode := _opCode d;
     _commandSize := _commandSize d;
     _commandBuffer := b |}.

Definition UsbEventSender_raiseEvent (e : CdcControlEvent) : M CdcDevice unit :=
  call (raiseEvent e) ;;
  match data e with
  | nullptr => mret tt
  | commandBuffer_ptr =>
      modify (fun d => set_commandBuffer (populate e (_commandBuffer d)) d)
  end.

(** *** [onCdcSetup] *)

Definition set_opCode (v : Z) (d : CdcDevice) : CdcDevice :=
  {| _configurationDescriptor := _configurationDescriptor d;
     _opCode := v;
     _commandSize := _commandSize d;
     _commandBuffer := _commandBuffer d |}.

Definition set_commandSize (v : Z) (d : CdcDevice) : CdcDevice :=
  {| _configurationDescriptor := _configurationDescriptor d;
     _opCode := _opCode d;
     _commandSize := v;
     _commandBuffer := _commandBuffer d |}.

Definition onCdcSetup (request : USBD_SetupReqTypedef) : M CdcDevice unit :=
  if negb (Z.land (bmRequest request) USB_REQ_TYPE_MASK =? USB_REQ_TYPE_CLASS)
  then mret tt
  else
    if negb (wLength request =? 0) then
      if negb (Z.land (bmRequest request) 0x80 =? 0) then
        UsbEventSender_raiseEvent
          {| opcode := bRequest request;
             data := commandBuffer_ptr;
             size := wLength request |} ;;
        call (USBD_CtlSendData commandBuffer_ptr (wLength request))
      else
        modify (set_opCode (bRequest request)) ;;
        modify (set_commandSize (wrap8 (wLength request))) ;;
        call (USBD_CtlPrepareRx commandBuffer_ptr (wLength request))
    else
      UsbEventSender_raiseEvent
        {| opcode := bRequest request; data := nullptr; size := 0 |}.

(** *** [onEvent] *)

Definition onEvent (event : UsbEventDescriptor) : M CdcDevice unit :=
  match event with
  | CLASS_INIT =>
      call (USBD_LL_OpenEP COMMAND_EP_ADDRESS EndpointDescriptor_INTERRUPT
              MAX_COMMAND_EP_PACKET_SIZE)
  | CLASS_DEINIT =>
      call (USBD_LL_CloseEP COMMAND_EP_ADDRESS)
  | CLASS_SETUP request =>
      onCdcSetup request
  | OTHER_EVENT _ =>
      mret tt
  end.

(** The device after a stream of events, each handled to completion. *)
Definition after_events (events : list UsbEventDescriptor) (d : CdcDevice) : CdcDevice :=
  fold_left (fun d e => final (onEvent e d)) events d.

(** *** [initialise] *)

(** The state of everything below this class: the base device, the
    endpoints, the peripheral. *)
Variable W : Type.

(** An upstream [initialise(params)]: it reports success and changes the
    state below. *)
Definition Initialiser : Type := Parameters -> W -> bool * W.

Variables Device_initialise ControlEndpointFeature_initialise : Initialiser.
Variable Features_initialise : list Initialiser.

Definition System : Type := CdcDevice * W.

Definition on_device (f : CdcDevice -> CdcDevice) : M System unit :=
  modify (fun s => (f (fst s), snd s)).

Definition upstream_call (u : Upstream) (f : Initialiser) (params : Parameters)
  : M System bool :=
  fun s =>
    let '(ok, w) := f params (snd s) in
    (ok, (fst s, w), [upstream_initialise u ok]).

(** Modelled from the spec: [RecursiveBoolInitWithParams<...>::tinit],
    declared outside of this file.  The features' [initialise] are
    called in a fixed order, the result is the logical AND of the calls,
    and the first failure ends the sequence. *)
Fixpoint tinit (n : nat) (fs : list Initialiser) (params : Parameters)
  : M System bool :=
  match fs with
  | [] => mret true
  | f :: gs =>
      ok ← upstream_call (Feature_ n) f params;
      if negb (ok : bool) then mret false else tinit (S n) gs params
  end.

Definition set_commandEndpoint (e : EndpointDescriptor) (d : CdcDevice) : CdcDevice :=
  {| _configurationDescriptor :=
       {| commandEndpoint := e;
          otherDescriptors := otherDescriptors (_configurationDescriptor d) |};
     _opCode := _opCode d;
     _commandSize := _commandSize d;
     _commandBuffer := _commandBuffer d |}.

Definition the_commandEndpoint (d : CdcDevice) : EndpointDescriptor :=
  commandEndpoint (_configurationDescriptor d).

Definition set_bEndpointAddress (v : Z) (d : CdcDevice) : CdcDevice :=
  let e := the_commandEndpoint d in
  set_commandEndpoint
    {| bEndpointAddress := v; bmAttributes := bmAttributes e;
       wMaxPacketSize := wMaxPacketSize e; bInterval := bInterval e |} d.

Definition set_bmAttributes (v : Z) (d : CdcDevice) : CdcDevice :=
  let e := the_commandEndpoint d in
  set_commandEndpoint
    {| bEndpointAddress := bEndpointAddress e; bmAttributes := v;
       wMaxPacketSize := wMaxPacketSize e; bInterval := bInterval e |} d.

Definition set_wMaxPacketSize (v : Z) (d : CdcDevice) : CdcDevice :=
  let e := the_commandEndpoint d in
  set_commandEndpoint
    {| bEndpointAddress := bEndpointAddress e; bmAttributes := bmAttributes e;
       wMaxPacketSize := v; bInterval := bInterval e |} d.

Definition set_bInterval (v : Z) (d : CdcDevice) : CdcDevice :=
  let e := the_commandEndpoint d in
  set_commandEndpoint
    {| bEndpointAddress := bEndpointAddress e; bmAttributes := bmAttributes e;
       wMaxPacketSize := wMaxPacketSize e; bInterval := v |} d.

Definition initialise (params : Parameters) : M System bool :=
  failed ← or_else
             (or_else (not_ (upstream_call Device_ Device_initialise params))
                      (not_ (upstream_call ControlEndpointFeature_
                               ControlEndpointFeature_initialise params)))
             (not_ (tinit 0 Features_initialise params));
  if (failed : bool) then mret false
  else
    on_device (set_bEndpointAddress COMMAND_EP_ADDRESS) ;;
    on_device (set_bmAttributes EndpointDescriptor_INTERRUPT) ;;
    on_device (set_wMaxPacketSize MAX_COMMAND_EP_PACKET_SIZE) ;;
    on_device (set_bInterval (cdc_cmd_poll_interval params)) ;;
    call USBD_RegisterClass ;;
    mret true.

(** *** Properties as the specification words them *)

(** The type bits of [bmRequest] say "class". *)
Definition is_class_request (request : USBD_SetupReqTypedef) : Prop :=
  Z.land (bmRequest request) USB_REQ_TYPE_MASK = USB_REQ_TYPE_CLASS.

(** The command endpoint as [initialise] writes it. *)
Definition populated (params : Parameters) : EndpointDescriptor :=
  {| bEndpointAddress := COMMAND_EP_ADDRESS;
     bmAttributes := EndpointDescriptor_INTERRUPT;
     wMaxPacketSize := MAX_COMMAND_EP_PACKET_SIZE;
     bInterval := cdc_cmd_poll_interval params |}.

(** The bounds the specification asks of a setup request: afterwards the
    pending length is within the buffer and no data primitive was given
    more than the buffer holds. *)
Definition stays_within_buffer (request : USBD_SetupReqTypedef) (d : CdcDevice) : Prop :=
  let r := onCdcSetup request d in
  _commandSize (final r) <= MAX_COMMAND_EP_PACKET_SIZE /\
  Forall within_capacity (calls r).

(** The response to a device-to-host request as the specification words
    it: one event with the request code, a buffer of at least [wLength]
    bytes and the length [wLength], then the send of that buffer. *)
Definition responds_from_large_enough_buffer
    (request : USBD_SetupReqTypedef) (d : CdcDevice) : Prop :=
  exists e,
    calls (onCdcSetup request d)
      = [raiseEvent e; USBD_CtlSendData (data e) (wLength request)] /\
    opcode e = bRequest request /\
    wLength request <= capacity (data e) /\
    size e = wLength request.

(** *** The rest of the class *)

(** What the constructor and the destructor ask of the event sender,
    for the slot bound to [onEvent] of this object. *)
Inductive Subscription :=
| insertSubscriber
| removeSubscriber.

(** [CdcDevice()]: the base constructors act below this class; of the
    members only [_opCode] is reset, the others keep what the storage
    [raw] held; [onEvent] is subscribed. *)
Definition CdcDevice_ctor (raw : CdcDevice) : CdcDevice * list Subscription :=
  (set_opCode 0 raw, [insertSubscriber]).

(** [~CdcDevice()] *)
Definition CdcDevice_dtor (d : CdcDevice) : list Subscription :=
  [removeSubscriber].

(** The handler on a stream of events, each handled to completion
    before the next arrives. *)
Fixpoint onEvents (events : list UsbEventDescriptor) : M CdcDevice unit :=
  match events with
  | [] => mret tt
  | e :: es => onEvent e ;; onEvents es
  end.

(** *** Vocabulary of the further properties *)

(** The data primitives among the calls, in order. *)
Definition io_of (t : list Call) : list Call :=
  flat_map (fun c => if is_endpoint_io c then [c] else []) t.

(** The endpoint open and close calls among the calls, in order. *)
Definition lifecycle_of (t : list Call) : list Call :=
  flat_map (fun c => match c with
                     | USBD_LL_OpenEP _ _ _ | USBD_LL_CloseEP _ => [c]
                     | _ => []
                     end) t.

(** The open or close call an event stands for. *)
Definition lifecycle_call (e : UsbEventDescriptor) : list Call :=
  match e with
  | CLASS_INIT =>
      [USBD_LL_OpenEP COMMAND_EP_ADDRESS EndpointDescriptor_INTERRUPT
         MAX_COMMAND_EP_PACKET_SIZE]
  | CLASS_DEINIT => [USBD_LL_CloseEP COMMAND_EP_ADDRESS]
  | _ => []
  end.

(** The calls [initialise] may make. *)
Definition is_initialise_call (c : Call) : Prop :=
  match c with
  | upstream_initialise _ _ | USBD_RegisterClass => True
  | _ => False
  end.

(** A request whose setup stage records a pending transfer: a class
    request, host-to-device, with data. *)
Definition records (request : USBD_SetupReqTypedef) : Prop :=
  is_class_request request /\ wLength request <> 0 /\ host_to_device request.

(** A request answered from the command buffer: a class request,
    device-to-host, with data. *)
Definition answers (request : USBD_SetupReqTypedef) : Prop :=
  is_class_request request /\ wLength request <> 0 /\ device_to_host request.

Definition event_records (e : UsbEventDescriptor) : Prop :=
  match e with
  | CLASS_SETUP request => records request
  | _ => False
  end.

End CdcDevice.

Arguments Build_ConfigurationDescriptor {TOther}.
Arguments commandEndpoint {TOther}.
Arguments otherDescriptors {TOther}.
Arguments Build_Parameters {UpstreamParameters}.
Arguments upstream {UpstreamParameters}.
Arguments cdc_cmd_poll_interval {UpstreamParameters}.
Arguments Parameters_ctor {UpstreamParameters}.
Arguments Build_CdcDevice {TOther}.
Arguments _configurationDescriptor {TOther}.
Arguments _opCode {TOther}.
Arguments _commandSize {TOther}.
Arguments _commandBuffer {TOther}.
Arguments the_commandEndpoint {TOther}.
Arguments set_commandBuffer {TOther}.
Arguments populated _ _ {UpstreamParameters}.

(** ** A concrete instance

    The values of ST's [usbd_def.h] and of the USB 2.0 descriptor
    tables, no upstream parameters, nothing else in the configuration
    descriptor, and a state below that counts the upstream calls. *)
Module Sample.

Definition USB_REQ_TYPE_MASK : Z := 0x60.
Definition USB_REQ_TYPE_CLASS : Z := 0x20.
Definition EndpointDescriptor_IN : Z := 0x80.
Definition EndpointDescriptor_INTERRUPT : Z := 0x03.

(** A device after its constructor, which resets [_opCode]; the members
    the constructor leaves unset are taken as zero. *)
Definition fresh : CdcDevice unit :=
  {| _configurationDescriptor :=
       {| commandEndpoint :=
            {| bEndpointAddress := 0; bmAttributes := 0;
               wMaxPacketSize := 0; bInterval := 0 |};
          otherDescriptors := tt |};
     _opCode := 0;
     _commandSize := 0;
     _commandBuffer := replicate 16 0 |}.

(** A subscriber that answers every request with the bytes 1, 2, 3, ... *)
Definition counting (e : CdcControlEvent) (buf : list Z) : list (nat * Z) :=
  map (fun i => (i, Z.of_nat (S i))) (seq 0 (Z.to_nat (size e))).

Definition setup (request : USBD_SetupReqTypedef) : M (CdcDevice unit) unit :=
  onCdcSetup USB_REQ_TYPE_MASK USB_REQ_TYPE_CLASS unit counting request.

Definition event (e : UsbEventDescriptor) : M (CdcDevice unit) unit :=
  onEvent USB_REQ_TYPE_MASK USB_REQ_TYPE_CLASS
    EndpointDescriptor_IN EndpointDescriptor_INTERRUPT unit counting e.

(** The requests of the CDC PSTN subclass used in the scenarios. *)
Definition SET_LINE_CODING : USBD_SetupReqTypedef :=
  {| bmRequest := 0x21; bRequest := 0x20; wLength := 7 |}.
Definition GET_LINE_CODING : USBD_SetupReqTypedef :=
  {| bmRequest := 0xA1; bRequest := 0x21; wLength := 7 |}.
Definition SEND_BREAK : USBD_SetupReqTypedef :=
  {| bmRequest := 0x21; bRequest := 0x23; wLength := 0 |}.

(** A standard (not class) request: GET_DESCRIPTOR. *)
Definition GET_DESCRIPTOR : USBD_SetupReqTypedef :=
  {| bmRequest := 0x80; bRequest := 0x06; wLength := 18 |}.

(** Requests that declare more data than the command buffer holds. *)
Definition oversized_out : USBD_SetupReqTypedef :=
  {| bmRequest := 0x21; bRequest := 0x20; wLength := 17 |}.
Definition oversized_in : USBD_SetupReqTypedef :=
  {| bmRequest := 0xA1; bRequest := 0x21; wLength := 17 |}.
Definition wide_out : USBD_SetupReqTypedef :=
  {| bmRequest := 0x21; bRequest := 0x20; wLength := 256 |}.

(** Upstream initialisers over a counter of calls: one that succeeds,
    one that fails, one that succeeds on its first call only. *)
Definition succeeds : Initialiser unit nat := fun _ n => (true, S n).
Definition fails : Initialiser unit nat := fun _ n => (false, S n).
Definition once : Initialiser unit nat := fun _ n => (Nat.eqb n 2, S n).

Definition init (features : list (Initialiser unit nat)) (interval : Z)
  : M (System unit nat) bool :=
  initialise EndpointDescriptor_IN EndpointDescriptor_INTERRUPT unit unit nat
    succeeds succeeds features {| upstream := tt; cdc_cmd_poll_interval := interval |}.

(** More requests: SET_COMM_FEATURE, and SET_LINE_CODING addressed to an
    endpoint instead of an interface. *)
Definition SET_COMM_FEATURE : USBD_SetupReqTypedef :=
  {| bmRequest := 0x21; bRequest := 0x02; wLength := 2 |}.
Definition SET_LINE_CODING_to_endpoint : USBD_SetupReqTypedef :=
  {| bmRequest := 0x22; bRequest := 0x20; wLength := 7 |}.

(** Storage with something in every member, as a constructor may find it. *)
Definition stale : CdcDevice unit :=
  {| _configurationDescriptor :=
       {| commandEndpoint :=
            {| bEndpointAddress := 0xFF; bmAttributes := 0xFF;
               wMaxPacketSize := 0xFFFF; bInterval := 0xFF |};
          otherDescriptors := tt |};
     _opCode := 0x55;
     _commandSize := 0xAA;
     _commandBuffer := replicate 16 0xFF |}.

Definition after (es : list UsbEventDescriptor) (d : CdcDevice unit) : CdcDevice unit :=
  after_events USB_REQ_TYPE_MASK USB_REQ_TYPE_CLASS
    EndpointDescriptor_IN EndpointDescriptor_INTERRUPT unit counting es d.

End Sample.

(** Closes a goal that only needs the definitions evaluated. *)
Ltac evaluated :=
  vm_compute; repeat split; first [reflexivity | discriminate].

(** ** Properties *)

Section Properties.

Variables USB_REQ_TYPE_MASK USB_REQ_TYPE_CLASS : Z.
Variables EndpointDescriptor_IN EndpointDescriptor_INTERRUPT : Z.
Variables TOther UpstreamParameters W : Type.
Variable subscribers : CdcControlEvent -> list Z -> list (nat * Z).
Variables Device_initialise ControlEndpointFeature_initialise
  : Initialiser UpstreamParameters W.
Variable Features_initialise : list (Initialiser UpstreamParameters W).

Local Abbreviation setup :=
  (onCdcSetup USB_REQ_TYPE_MASK USB_REQ_TYPE_CLASS TOther subscribers).
Local Abbreviation handle :=
  (onEvent USB_REQ_TYPE_MASK USB_REQ_TYPE_CLASS
     EndpointDescriptor_IN EndpointDescriptor_INTERRUPT TOther subscribers).
Local Abbreviation class_request :=
  (is_class_request USB_REQ_TYPE_MASK USB_REQ_TYPE_CLASS).
Local Abbreviation init :=
  (initialise EndpointDescriptor_IN EndpointDescriptor_INTERRUPT TOther
     UpstreamParameters W Device_initialise ControlEndpointFeature_initialise
     Features_initialise).
Local Abbreviation address := (COMMAND_EP_ADDRESS EndpointDescriptor_IN).
Local Abbreviation within_buffer :=
  (stays_within_buffer USB_REQ_TYPE_MASK USB_REQ_TYPE_CLASS TOther subscribers).
Local Abbreviation after :=
  (after_events USB_REQ_TYPE_MASK USB_REQ_TYPE_CLASS
     EndpointDescriptor_IN EndpointDescriptor_INTERRUPT TOther subscribers).
Local Abbreviation written :=
  (populated EndpointDescriptor_IN EndpointDescriptor_INTERRUPT).

Implicit Types (request : USBD_SetupReqTypedef) (d : CdcDevice TOther).

(** *** The three branches of [onCdcSetup], as equations *)

Lemma onCdcSetup_not_class request d :
  ~ class_request request -> setup request d = (tt, d, []).
Proof.
  intros H. unfold onCdcSetup, is_class_request in *.
  destruct (Z.eqb_spec (Z.land (bmRequest request) USB_REQ_TYPE_MASK)
              USB_REQ_TYPE_CLASS) as [E | E]; [contradiction | reflexivity].
Qed.

Lemma onCdcSetup_no_data request d :
  class_request request -> wLength request = 0 ->
  setup request d
    = (tt, d, [raiseEvent {| opcode := bRequest request; data := nullptr; size := 0 |}]).
Proof.
  intros Hc Hl. unfold onCdcSetup, is_class_request in *.
  apply Z.eqb_eq in Hc. rewrite Hc, Hl. reflexivity.
Qed.

Lemma onCdcSetup_in request d :
  class_request request -> wLength request <> 0 -> device_to_host request ->
  setup request d
    = (tt,
       set_commandBuffer
         (populate subscribers
            {| opcode := bRequest request; data := commandBuffer_ptr;
               size := wLength request |} (_commandBuffer d)) d,
       [raiseEvent {| opcode := bRequest request; data := commandBuffer_ptr;
                      size := wLength request |};
        USBD_CtlSendData commandBuffer_ptr (wLength request)]).
Proof.
  intros Hc Hl Hd. unfold onCdcSetup, is_class_request, device_to_host in *.
  apply Z.eqb_eq in Hc. apply Z.eqb_neq in Hl, Hd. rewrite Hc, Hl, Hd.
  reflexivity.
Qed.

Lemma onCdcSetup_out request d :
  class_request request -> wLength request <> 0 -> host_to_device request ->
  setup request d
    = (tt,
       set_commandSize TOther (wrap8 (wLength request))
         (set_opCode TOther (bRequest request) d),
       [USBD_CtlPrepareRx commandBuffer_ptr (wLength request)]).
Proof.
  intros Hc Hl Hd. unfold onCdcSetup, is_class_request, host_to_device in *.
  apply Z.eqb_eq in Hc, Hd. apply Z.eqb_neq in Hl. rewrite Hc, Hl, Hd.
  reflexivity.
Qed.

(** A host-to-device request whose length fits in a byte is recorded as
    given: no event, the op code and the length of the setup packet, and
    a receive armed for that length. *)
Lemma onCdcSetup_out_recorded request d :
  class_request request -> 0 < wLength request < 2 ^ 8 ->
  host_to_device request ->
  let r := setup request d in
  events_of (calls r) = []
  /\ _opCode (final r) = bRequest request
  /\ _commandSize (final r) = wLength request
  /\ calls r = [USBD_CtlPrepareRx commandBuffer_ptr (wLength request)].
Proof.
  intros Hc Hl Hd r. subst r.
  rewrite onCdcSetup_out by (try assumption; lia).
  unfold calls, final; simpl. repeat split.
  unfold wrap8. apply Z.mod_small. lia.
Qed.

(** Every request falls in one of the four cases. *)
Lemma request_cases request :
  ~ class_request request
  \/ (class_request request /\ wLength request = 0)
  \/ (class_request request /\ wLength request <> 0 /\ device_to_host request)
  \/ (class_request request /\ wLength request <> 0 /\ host_to_device request).
Proof.
  unfold is_class_request, device_to_host, host_to_device.
  destruct (Z.eq_dec (Z.land (bmRequest request) USB_REQ_TYPE_MASK)
              USB_REQ_TYPE_CLASS); [| tauto].
  destruct (Z.eq_dec (wLength request) 0); [tauto |].
  destruct (Z.eq_dec (Z.land (bmRequest request) 128) 0); tauto.
Qed.

(** *** The upstream calls of [initialise] *)

Lemma short_circuit_next u ups ok t :
  short_circuit ups ok t -> short_circuit (u :: ups) ok (succeeded u :: t).
Proof.
  unfold short_circuit. destruct ok; simpl.
  - intros ->. reflexivity.
  - intros (k & v & Hk & ->). exists (S k), v. split; [exact Hk | reflexivity].
Qed.

Lemma short_circuit_stop u ups : short_circuit (u :: ups) false [failed u].
Proof. exists 0%nat, u. split; reflexivity. Qed.

Lemma tinit_calls (fs : list (Initialiser UpstreamParameters W)) :
  forall n params (s : System TOther W),
    let r := tinit TOther UpstreamParameters W n fs params s in
    fst (final r) = fst s /\
    short_circuit (map Feature_ (seq n (length fs))) (result r) (calls r).
Proof.
  induction fs as [| f gs IH]; intros n params s; simpl.
  - split; reflexivity.
  - unfold mbind, M_bind, upstream_call.
    destruct (f params (snd s)) as [ok w]. destruct ok; simpl.
    + specialize (IH (S n) params (fst s, w)). simpl in IH.
      destruct (tinit TOther UpstreamParameters W (S n) gs params (fst s, w))
        as [[b s'] t]. simpl in *.
      destruct IH as [Hd Ht]. split; [exact Hd |].
      apply (short_circuit_next (Feature_ n)) in Ht. exact Ht.
    + split; [reflexivity | apply short_circuit_stop].
Qed.

(** [initialise] either makes every upstream call, writes the endpoint
    and registers the class, or stops at the first failure with the
    device as it was. *)
Lemma initialise_runs params (s : System TOther W) :
  let r := init params s in
  let ups := all_upstreams (length Features_initialise) in
  if result r
  then calls r = map succeeded ups ++ [USBD_RegisterClass] /\
       _opCode (fst (final r)) = _opCode (fst s) /\
       _commandSize (fst (final r)) = _commandSize (fst s) /\
       _commandBuffer (fst (final r)) = _commandBuffer (fst s) /\
       otherDescriptors (_configurationDescriptor (fst (final r)))
         = otherDescriptors (_configurationDescriptor (fst s)) /\
       the_commandEndpoint (fst (final r))
         = written params
  else short_circuit ups false (calls r) /\ fst (final r) = fst s.
Proof.
  unfold initialise, or_else, not_, mbind, M_bind, upstream_call, all_upstreams.
  destruct (Device_initialise params (snd s)) as [ok1 w1].
  destruct ok1; simpl; [| split; [apply short_circuit_stop | reflexivity]].
  destruct (ControlEndpointFeature_initialise params w1) as [ok2 w2].
  destruct ok2; simpl;
    [| split; [apply short_circuit_next, short_circuit_stop | reflexivity]].
  pose proof (tinit_calls Features_initialise 0 params (fst s, w2)) as H.
  simpl in H.
  destruct (tinit TOther UpstreamParameters W 0 Features_initialise params
              (fst s, w2)) as [[ok3 s3] t3].
  unfold result, final, calls in *. simpl in H.
  destruct H as [Hd Ht]. destruct ok3; simpl in *.
  - unfold short_circuit in Ht. rewrite Ht, app_nil_r, Hd. repeat split.
  - rewrite !app_nil_r. split; [| exact Hd].
    do 2 apply short_circuit_next. exact Ht.
Qed.

Lemma short_circuit_all_succeeded ups t u :
  short_circuit ups true t -> ~ In (failed u) t.
Proof.
  unfold short_circuit. intros -> H. apply in_map_iff in H.
  destruct H as (v & Hv & _). discriminate Hv.
Qed.

Lemma short_circuit_failure_last ups t u :
  short_circuit ups false t -> In (failed u) t ->
  last t = Some (failed u) /\ ~ In USBD_RegisterClass t.
Proof.
  unfold short_circuit. intros (k & v & _ & ->) H.
  apply in_app_iff in H. destruct H as [H | [H | []]].
  - apply in_map_iff in H. destruct H as (x & Hx & _). discriminate Hx.
  - injection H as ->. split; [apply last_snoc |].
    intros H. apply in_app_iff in H. destruct H as [H | [H | []]].
    + apply in_map_iff in H. destruct H as (x & Hx & _). discriminate Hx.
    + discriminate H.
Qed.

Lemma onEvent_descriptor (e : UsbEventDescriptor) d :
  _configurationDescriptor (final (handle e d)) = _configurationDescriptor d.
Proof.
  destruct e as [| | request | n]; try reflexivity. simpl.
  destruct (request_cases request) as [H | [[Hc Hl] | [(Hc & Hl & Hd) | (Hc & Hl & Hd)]]].
  - rewrite onCdcSetup_not_class by exact H. reflexivity.
  - rewrite onCdcSetup_no_data by assumption. reflexivity.
  - rewrite onCdcSetup_in by assumption. reflexivity.
  - rewrite onCdcSetup_out by assumption. reflexivity.
Qed.

Lemma after_events_descriptor (es : list UsbEventDescriptor) :
  forall d, _configurationDescriptor (after es d) = _configurationDescriptor d.
Proof.
  unfold after_events.
  induction es as [| e es IH]; intros d; simpl; [reflexivity |].
  rewrite IH. apply onEvent_descriptor.
Qed.

Lemma wrap8_small x : 0 <= x <= MAX_COMMAND_EP_PACKET_SIZE -> wrap8 x = x.
Proof.
  unfold wrap8, MAX_COMMAND_EP_PACKET_SIZE. intros H.
  apply Z.mod_small. lia.
Qed.

(** *** The claims *)

(** C1, as amended.  [onCdcSetup] never compares [wLength] with the
    capacity of the command buffer and rejects nothing.  For a class
    request, every data call it makes is on the command buffer with the
    length [wLength] of the setup packet: a send when the request is
    device-to-host, an arm-receive when it is host-to-device.  When
    [wLength] is at most 16, and the pending length was at most 16, the
    pending length stays within the buffer and no primitive is given
    more than 16 bytes.  When [wLength] exceeds 16 the request is served
    like any other, whatever the pending length: device-to-host, the
    event is raised and [wLength] bytes are sent; host-to-device, a
    receive of [wLength] bytes is armed; either way a primitive is given
    more than the buffer holds. *)
Theorem setup_lengths_unchecked request d :
  class_request request ->
  let r := setup request d in
  Forall (fun c => is_endpoint_io c = true ->
            (device_to_host request /\
             c = USBD_CtlSendData commandBuffer_ptr (wLength request)) \/
            (host_to_device request /\
             c = USBD_CtlPrepareRx commandBuffer_ptr (wLength request)))
    (calls r)
  /\ (wf_request request ->
      wLength request <= MAX_COMMAND_EP_PACKET_SIZE ->
      _commandSize d <= MAX_COMMAND_EP_PACKET_SIZE ->
      within_buffer request d)
  /\ (MAX_COMMAND_EP_PACKET_SIZE < wLength request ->
      (device_to_host request ->
         calls r = [raiseEvent {| opcode := bRequest request;
                                  data := commandBuffer_ptr;
                                  size := wLength request |};
                    USBD_CtlSendData commandBuffer_ptr (wLength request)])
      /\ (host_to_device request ->
          calls r = [USBD_CtlPrepareRx commandBuffer_ptr (wLength request)])
      /\ Exists (fun c => is_endpoint_io c = true /\ ~ within_capacity c) (calls r)).
Proof.
  intros Hc r. subst r. unfold stays_within_buffer.
  destruct (request_cases request)
    as [H | [[_ Hl] | [(_ & Hl & Hd) | (_ & Hl & Hd)]]]; [contradiction | | |].
  - rewrite onCdcSetup_no_data by assumption.
    unfold calls, final; simpl. split; [| split].
    + constructor; [discriminate | constructor].
    + intros _ _ Hs. split; [exact Hs |]. constructor; [exact I | constructor].
    + unfold MAX_COMMAND_EP_PACKET_SIZE. lia.
  - rewrite onCdcSetup_in by assumption.
    unfold calls, final; simpl. split; [| split].
    + constructor; [discriminate |]. constructor; [| constructor].
      intros _. left. split; [exact Hd | reflexivity].
    + intros _ Hle Hs. split; [exact Hs |].
      constructor; [exact I |]. constructor; [exact Hle | constructor].
    + intros Hgt. split; [intros _; reflexivity |]. split.
      * intros Hh. exfalso. unfold device_to_host, host_to_device in *. tauto.
      * apply Exists_cons_tl, Exists_cons_hd.
        split; [reflexivity | simpl; lia].
  - rewrite onCdcSetup_out by assumption.
    unfold calls, final; simpl. split; [| split].
    + constructor; [| constructor].
      intros _. right. split; [exact Hd | reflexivity].
    + intros (_ & _ & Hw) Hle Hs. split; [| constructor; [exact Hle | constructor]].
      rewrite wrap8_small; [exact Hle |]. unfold is_uint16 in Hw. lia.
    + intros Hgt. split.
      * intros Hh. exfalso. unfold device_to_host, host_to_device in *. tauto.
      * split; [intros _; reflexivity |]. apply Exists_cons_hd.
        split; [reflexivity | simpl; lia].
Qed.

(** C2, as amended.  For a class request with [wLength > 0] and
    direction device-to-host, exactly one event is raised, with the
    request code, the command buffer and the length [wLength]; the
    subscribers have filled the buffer when the event sender returns,
    and only then is the send primitive called, with the same buffer and
    the same length.  The buffer is the 16 byte command buffer whatever
    [wLength] is: it holds [wLength] bytes exactly when [wLength] is at
    most 16. *)
Theorem in_request_event_then_send request d :
  class_request request ->
  0 < wLength request ->
  device_to_host request ->
  let r := setup request d in
  let e := {| opcode := bRequest request; data := commandBuffer_ptr;
              size := wLength request |} in
  calls r = [raiseEvent e; USBD_CtlSendData (data e) (wLength request)]
  /\ events_of (calls r) = [e]
  /\ _commandBuffer (final r) = populate subscribers e (_commandBuffer d)
  /\ capacity (data e) = 16
  /\ (wLength request <= capacity (data e) <-> wLength request <= 16).
Proof.
  intros Hc Hl Hd r e. subst r e.
  rewrite onCdcSetup_in by (try assumption; lia).
  unfold calls, final; simpl. unfold MAX_COMMAND_EP_PACKET_SIZE.
  repeat split; intros; assumption.
Qed.

(** C4.  A class request with [wLength = 0] raises exactly one event,
    with the request code, a null payload and length 0, and calls no
    endpoint primitive; the device is left as it was. *)
Theorem zero_length_request_event_only request d :
  class_request request ->
  wLength request = 0 ->
  let r := setup request d in
  calls r = [raiseEvent {| opcode := bRequest request; data := nullptr; size := 0 |}]
  /\ events_of (calls r)
      = [{| opcode := bRequest request; data := nullptr; size := 0 |}]
  /\ Forall (fun c => is_endpoint_io c = false) (calls r)
  /\ final r = d.
Proof.
  intros Hc Hl r. subst r. rewrite onCdcSetup_no_data by assumption.
  unfold calls, final; simpl. repeat split.
  constructor; [reflexivity | constructor].
Qed.

(** C5.  A setup request whose type bits are not "class" changes nothing
    of the device (pending op code, pending length, command buffer,
    configuration descriptor), raises no event and calls no primitive,
    whether it reaches [onCdcSetup] directly or through [onEvent]. *)
Theorem non_class_request_ignored request d :
  ~ class_request request ->
  setup request d = (tt, d, []) /\
  final (handle (CLASS_SETUP request) d) = d /\
  calls (handle (CLASS_SETUP request) d) = [].
Proof.
  intros H. simpl. rewrite onCdcSetup_not_class by exact H.
  repeat split.
Qed.

(** C6.  [CLASS_INIT] opens the command endpoint once, with its address,
    the interrupt type and the maximum packet size; [CLASS_DEINIT]
    closes it once, with the same address; any event that is not
    [CLASS_INIT], [CLASS_DEINIT] or [CLASS_SETUP] does nothing.  The
    arguments are the ones a successful [initialise] wrote into the
    command endpoint descriptor. *)
Theorem lifecycle_events d :
  handle CLASS_INIT d
    = (tt, d, [USBD_LL_OpenEP address EndpointDescriptor_INTERRUPT
                 MAX_COMMAND_EP_PACKET_SIZE])
  /\ handle CLASS_DEINIT d = (tt, d, [USBD_LL_CloseEP address])
  /\ (forall n, handle (OTHER_EVENT n) d = (tt, d, []))
  /\ (forall params (s : System TOther W),
        result (init params s) = true ->
        let ep := the_commandEndpoint (fst (final (init params s))) in
        calls (handle CLASS_INIT d)
          = [USBD_LL_OpenEP (bEndpointAddress ep) (bmAttributes ep)
               (wMaxPacketSize ep)]
        /\ calls (handle CLASS_DEINIT d) = [USBD_LL_CloseEP (bEndpointAddress ep)]).
Proof.
  repeat split; try reflexivity;
    pose proof (initialise_runs params s) as R; simpl in R;
    rewrite H in R; destruct R as (_ & _ & _ & _ & _ & ->); reflexivity.
Qed.

(** C7.  If an upstream [initialise] fails, [initialise] returns false,
    the failed call is the last call it makes (no later initialiser and
    no class registration), and the device, with its configuration
    descriptor, is as before.  It returns false only after such a
    failure, and true only after every upstream initialiser was called,
    in order, and succeeded. *)
Theorem initialise_fails_fast params (s : System TOther W) :
  let r := init params s in
  let ups := all_upstreams (length Features_initialise) in
  (forall u, In (failed u) (calls r) ->
     result r = false /\
     last (calls r) = Some (failed u) /\
     ~ In USBD_RegisterClass (calls r) /\
     fst (final r) = fst s)
  /\ (result r = false ->
      fst (final r) = fst s /\
      exists k u, ups !! k = Some u /\
                  calls r = map succeeded (take k ups) ++ [failed u])
  /\ (result r = true ->
      calls r = map succeeded ups ++ [USBD_RegisterClass]).
Proof.
  intros r ups. pose proof (initialise_runs params s) as R.
  fold r ups in R. cbv zeta in R. destruct (result r).
  - destruct R as (Hc & _). split; [| split]; [| discriminate | intros _; exact Hc].
    intros u Hu. exfalso. rewrite Hc in Hu. apply in_app_iff in Hu.
    destruct Hu as [Hu | [Hu | []]]; [| discriminate Hu].
    revert Hu. apply (short_circuit_all_succeeded ups). reflexivity.
  - destruct R as (Hc & Hd). split; [| split]; [| | discriminate].
    + intros u Hu.
      destruct (short_circuit_failure_last ups (calls r) u Hc Hu) as [Hl Hn].
      repeat split; assumption.
    + intros _. split; [exact Hd | exact Hc].
Qed.

(** C8.  A successful [initialise] leaves in the command endpoint
    descriptor exactly the two constants, the packet size and the
    interval of its parameters, whatever was there before; a second call
    with the same parameters, with nothing in between, leaves the
    configuration descriptor as the first call left it. *)
Theorem initialise_twice params (s : System TOther W) :
  let r1 := init params s in
  result r1 = true ->
  let r2 := init params (final r1) in
  the_commandEndpoint (fst (final r1)) = written params
  /\ (result r2 = true -> the_commandEndpoint (fst (final r2)) = written params)
  /\ _configurationDescriptor (fst (final r2))
      = _configurationDescriptor (fst (final r1)).
Proof.
  intros r1 H1 r2.
  pose proof (initialise_runs params s) as R1. fold r1 in R1. cbv zeta in R1.
  rewrite H1 in R1. destruct R1 as (_ & _ & _ & _ & _ & E1).
  pose proof (initialise_runs params (final r1)) as R2. fold r2 in R2.
  cbv zeta in R2. split; [exact E1 |]. destruct (result r2).
  - destruct R2 as (_ & _ & _ & _ & O2 & E2). split; [intros _; exact E2 |].
    unfold the_commandEndpoint in *.
    destruct (_configurationDescriptor (fst (final r2))),
             (_configurationDescriptor (fst (final r1))).
    simpl in *. congruence.
  - destruct R2 as (_ & ->). split; [discriminate | reflexivity].
Qed.

(** C9.  When [initialise] returns true the command endpoint descriptor
    holds its address, its transfer type, its maximum packet size and
    the polling interval of the parameters, which is 16 unless the
    caller changed it; and no event handled afterwards, lifecycle or
    setup, one or many, changes the configuration descriptor. *)
Theorem descriptor_populated_then_immutable params (s : System TOther W) :
  let r := init params s in
  result r = true ->
  the_commandEndpoint (fst (final r))
    = {| bEndpointAddress := address;
         bmAttributes := EndpointDescriptor_INTERRUPT;
         wMaxPacketSize := MAX_COMMAND_EP_PACKET_SIZE;
         bInterval := cdc_cmd_poll_interval params |}
  /\ (forall up : UpstreamParameters,
        cdc_cmd_poll_interval (Parameters_ctor up) = 16)
  /\ (forall e, _configurationDescriptor (final (handle e (fst (final r))))
                = _configurationDescriptor (fst (final r)))
  /\ (forall es, _configurationDescriptor (after es (fst (final r)))
                 = _configurationDescriptor (fst (final r))).
Proof.
  intros r H.
  pose proof (initialise_runs params s) as R. fold r in R. cbv zeta in R.
  rewrite H in R. destruct R as (_ & _ & _ & _ & _ & E).
  split; [exact E |]. split; [reflexivity |].
  split; [intros e; apply onEvent_descriptor |].
  intros es. apply after_events_descriptor.
Qed.

(** C10.  A class request with [wLength = 0], and a class request with
    direction device-to-host, leave the pending op code and the pending
    length as they were: of the branches of [onCdcSetup] only the one
    for a host-to-device request with data writes them. *)
Theorem pending_fields_frame request d :
  class_request request ->
  wLength request = 0 \/ device_to_host request ->
  let r := setup request d in
  _opCode (final r) = _opCode d /\ _commandSize (final r) = _commandSize d.
Proof.
  intros Hc H r. subst r.
  destruct (request_cases request)
    as [N | [[_ Hl] | [(_ & Hl & Hd) | (_ & Hl & Hd)]]].
  - contradiction.
  - rewrite onCdcSetup_no_data by assumption. split; reflexivity.
  - rewrite onCdcSetup_in by assumption. split; reflexivity.
  - exfalso. unfold device_to_host, host_to_device in *. tauto.
Qed.

(** *** Further properties of [onCdcSetup] *)

Local Abbreviation handle_all :=
  (onEvents USB_REQ_TYPE_MASK USB_REQ_TYPE_CLASS
     EndpointDescriptor_IN EndpointDescriptor_INTERRUPT TOther subscribers).
Local Abbreviation recording := (records USB_REQ_TYPE_MASK USB_REQ_TYPE_CLASS).
Local Abbreviation answering := (answers USB_REQ_TYPE_MASK USB_REQ_TYPE_CLASS).
Local Abbreviation event_recording :=
  (event_records USB_REQ_TYPE_MASK USB_REQ_TYPE_CLASS).
Local Abbreviation lifecycle :=
  (lifecycle_call EndpointDescriptor_IN EndpointDescriptor_INTERRUPT).

(** Splits a goal about [setup request d] into the four branches and
    rewrites with the equation of each. *)
Ltac setup_cases request :=
  let N := fresh "N" in
  let Hc := fresh "Hc" in
  let Hl := fresh "Hl" in
  let Hd := fresh "Hd" in
  destruct (request_cases request)
    as [N | [[Hc Hl] | [(Hc & Hl & Hd) | (Hc & Hl & Hd)]]];
  [ rewrite (onCdcSetup_not_class request) by exact N
  | rewrite (onCdcSetup_no_data request) by assumption
  | rewrite (onCdcSetup_in request) by assumption
  | rewrite (onCdcSetup_out request) by assumption ];
  unfold calls, final, result; simpl.

(** X1.  Every event [onCdcSetup] raises carries the request code of the
    setup packet, and its payload pointer is null exactly when its
    length is zero. *)
Theorem raised_events_well_formed request d :
  Forall (fun e => opcode e = bRequest request /\
                   (data e = nullptr <-> size e = 0))
    (events_of (calls (setup request d))).
Proof.
  setup_cases request.
  - constructor.
  - constructor; [| constructor]. split; [reflexivity | tauto].
  - constructor; [| constructor]. simpl.
    split; [reflexivity |]. split; [discriminate | contradiction].
  - constructor.
Qed.

(** X2.  A setup request makes at most one notification and at most one data
    transfer call, the notification first, and nothing else: no
    endpoint is opened or closed and no class is registered. *)
Theorem setup_calls_shape request d :
  let t := calls (setup request d) in
  t = map raiseEvent (events_of t) ++ io_of t
  /\ (length (events_of t) <= 1)%nat
  /\ (length (io_of t) <= 1)%nat.
Proof.
  setup_cases request; repeat split; lia.
Qed.

(** X3.  Data is sent only in answer to a device-to-host class request with
    data, a receive is armed only for a host-to-device class request
    with data; either is on the command buffer, for the non-zero length
    of the setup packet. *)
Theorem data_calls_follow_direction request d pbuf len :
  let t := calls (setup request d) in
  (In (USBD_CtlSendData pbuf len) t ->
     answering request /\ pbuf = commandBuffer_ptr /\ len = wLength request)
  /\ (In (USBD_CtlPrepareRx pbuf len) t ->
     recording request /\ pbuf = commandBuffer_ptr /\ len = wLength request).
Proof.
  unfold answers, records.
  setup_cases request; split; intros H;
    repeat (destruct H as [H | H]; try discriminate H); try contradiction;
    injection H as <- <-; repeat split; assumption.
Qed.

(** X4.  Of [bmRequest] only the type bits and the direction bit are looked
    at: two requests that agree on them, on the request code and on the
    length are handled alike, whatever their recipient bits. *)
Theorem recipient_bits_ignored request request' d :
  Z.land (bmRequest request) USB_REQ_TYPE_MASK
    = Z.land (bmRequest request') USB_REQ_TYPE_MASK ->
  Z.land (bmRequest request) 0x80 = Z.land (bmRequest request') 0x80 ->
  bRequest request = bRequest request' ->
  wLength request = wLength request' ->
  setup request d = setup request' d.
Proof.
  intros Ht Hd Hb Hl. unfold onCdcSetup. rewrite Ht, Hd, Hb, Hl. reflexivity.
Qed.

(** X5.  Only a request answered from the command buffer changes the buffer,
    only a request that records a pending transfer changes the pending
    op code or length; so no event changes both. *)
Theorem members_written_by (e : UsbEventDescriptor) d :
  let d' := final (handle e d) in
  (_commandBuffer d' <> _commandBuffer d ->
     exists request, e = CLASS_SETUP request /\ answering request)
  /\ (_opCode d' <> _opCode d \/ _commandSize d' <> _commandSize d ->
     exists request, e = CLASS_SETUP request /\ recording request).
Proof.
  unfold answers, records.
  destruct e as [| | request | n]; simpl;
    try (split; [intros H | intros [H | H]]; exfalso; apply H; reflexivity).
  setup_cases request; split; intros H;
    try (exists request; repeat split; assumption);
    exfalso; tauto.
Qed.

(** X6.  No queue: when a second recording request arrives before the data
    of the first, the device is as if the first had never been seen. *)
Theorem second_request_overwrites request request' d :
  recording request -> recording request' ->
  final (setup request' (final (setup request d))) = final (setup request' d).
Proof.
  intros (Hc & Hl & Hd) (Hc' & Hl' & Hd').
  rewrite (onCdcSetup_out request) by assumption.
  rewrite !(onCdcSetup_out request') by assumption.
  reflexivity.
Qed.

(** *** Streams of events *)

Lemma onEvents_cons (e : UsbEventDescriptor) es d :
  calls (handle_all (e :: es) d)
    = calls (handle e d) ++ calls (handle_all es (final (handle e d)))
  /\ final (handle_all (e :: es) d) = final (handle_all es (final (handle e d))).
Proof.
  simpl. unfold mbind, M_bind.
  destruct (handle e d) as [[u d1] t1].
  unfold calls, final. simpl.
  destruct (handle_all es d1) as [[v d2] t2]. split; reflexivity.
Qed.

Lemma onEvents_final (es : list UsbEventDescriptor) :
  forall d, final (handle_all es d) = after es d.
Proof.
  induction es as [| e es IH]; intros d; [reflexivity |].
  rewrite (proj2 (onEvents_cons e es d)), IH. reflexivity.
Qed.

Lemma onEvent_lifecycle (e : UsbEventDescriptor) d :
  lifecycle_of (calls (handle e d)) = lifecycle e.
Proof.
  destruct e as [| | request | n]; try reflexivity.
  simpl. setup_cases request; reflexivity.
Qed.

(** X7.  Over any stream of events the endpoint is opened once for each
    [CLASS_INIT] and closed once for each [CLASS_DEINIT], in the order
    of the events, and by nothing else: setup requests in between open
    and close nothing, and a repeated [CLASS_INIT] opens again. *)
Theorem endpoint_calls_follow_lifecycle (es : list UsbEventDescriptor) d :
  lifecycle_of (calls (handle_all es d)) = flat_map lifecycle es.
Proof.
  revert d. induction es as [| e es IH]; intros d; [reflexivity |].
  rewrite (proj1 (onEvents_cons e es d)).
  unfold lifecycle_of at 1. rewrite flat_map_app.
  fold (lifecycle_of (calls (handle e d))).
  fold (lifecycle_of (calls (handle_all es (final (handle e d))))).
  rewrite onEvent_lifecycle, IH. reflexivity.
Qed.

Lemma onEvent_keeps_pending (e : UsbEventDescriptor) d :
  ~ event_recording e ->
  _opCode (final (handle e d)) = _opCode d /\
  _commandSize (final (handle e d)) = _commandSize d.
Proof.
  intros H. destruct e as [| | request | n]; try (split; reflexivity).
  simpl in *. unfold records in H.
  setup_cases request; try (split; reflexivity).
  exfalso. apply H. repeat split; assumption.
Qed.

Lemma after_keeps_pending (es : list UsbEventDescriptor) :
  forall d, Forall (fun e => ~ event_recording e) es ->
    _opCode (after es d) = _opCode d /\ _commandSize (after es d) = _commandSize d.
Proof.
  unfold after_events.
  induction es as [| e es IH]; intros d H; simpl; [split; reflexivity |].
  inversion H as [| ? ? He Hes]; subst.
  destruct (IH (final (handle e d)) Hes) as [-> ->].
  apply onEvent_keeps_pending. exact He.
Qed.

(** X8.  After any stream of events the pending op code and length are those
    of the last request that recorded a transfer, the length cut to a
    byte; events after it that record nothing do not touch them. *)
Theorem pending_is_last_recorded pre request post d :
  recording request ->
  Forall (fun e => ~ event_recording e) post ->
  let d' := after (pre ++ CLASS_SETUP request :: post) d in
  _opCode d' = bRequest request /\ _commandSize d' = wrap8 (wLength request).
Proof.
  intros (Hc & Hl & Hd) Hpost d'. subst d'. unfold after_events.
  rewrite fold_left_app. simpl.
  set (d1 := fold_left _ pre d).
  destruct (after_keeps_pending post (final (setup request d1)) Hpost) as [E1 E2].
  unfold after_events in E1, E2. rewrite E1, E2.
  rewrite onCdcSetup_out by assumption. split; reflexivity.
Qed.

(** X9.  From construction on, as long as no request records a transfer, the
    pending op code is the 0 the constructor wrote. *)
Theorem op_code_zero_until_recorded (es : list UsbEventDescriptor) (raw : CdcDevice TOther) :
  Forall (fun e => ~ event_recording e) es ->
  _opCode (after es (fst (CdcDevice_ctor TOther raw))) = 0.
Proof.
  intros H. destruct (after_keeps_pending es (fst (CdcDevice_ctor TOther raw)) H)
    as [-> _]. reflexivity.
Qed.

(** *** Further properties of [initialise] *)

Lemma succeeded_calls ups : Forall is_initialise_call (map succeeded ups).
Proof.
  induction ups as [| u ups IH]; simpl; constructor; [exact I | exact IH].
Qed.

Lemma short_circuit_calls ups ok t :
  short_circuit ups ok t ->
  Forall is_initialise_call t /\ ~ In USBD_RegisterClass t /\
  (length t <= length ups)%nat.
Proof.
  unfold short_circuit. destruct ok.
  - intros ->. split; [| split].
    + apply succeeded_calls.
    + intros H. apply in_map_iff in H. destruct H as (u & Hu & _). discriminate Hu.
    + rewrite length_map. lia.
  - intros (k & u & Hk & ->). split; [| split].
    + apply Forall_app. split; [| constructor; [exact I | constructor]].
      apply succeeded_calls.
    + intros H. apply in_app_iff in H. destruct H as [H | [H | []]].
      * apply in_map_iff in H. destruct H as (v & Hv & _). discriminate Hv.
      * discriminate H.
    + apply lookup_lt_Some in Hk.
      rewrite length_app, length_map, length_take. simpl. lia.
Qed.

(** X10.  [initialise] touches nothing of the device but the command endpoint
    descriptor, whether it succeeds or not, and calls nothing but the
    upstream initialisers and the class registration: at most one call
    for the device, one for the control endpoint, one for each feature
    and the registration. *)
Theorem initialise_frame params (s : System TOther W) :
  let r := init params s in
  _opCode (fst (final r)) = _opCode (fst s)
  /\ _commandSize (fst (final r)) = _commandSize (fst s)
  /\ _commandBuffer (fst (final r)) = _commandBuffer (fst s)
  /\ otherDescriptors (_configurationDescriptor (fst (final r)))
     = otherDescriptors (_configurationDescriptor (fst s))
  /\ Forall is_initialise_call (calls r)
  /\ (length (calls r) <= 3 + length Features_initialise)%nat.
Proof.
  intros r. pose proof (initialise_runs params s) as R. fold r in R.
  cbv zeta in R. destruct (result r).
  - destruct R as (-> & E1 & E2 & E3 & E4 & _).
    repeat split; try assumption.
    + apply Forall_app. split; [| constructor; [exact I | constructor]].
      apply succeeded_calls.
    + rewrite length_app, length_map. unfold all_upstreams. simpl.
      rewrite length_map, length_seq. lia.
  - destruct R as (H & ->).
    destruct (short_circuit_calls _ _ _ H) as (F & _ & L).
    repeat split; try assumption.
    unfold all_upstreams in L. simpl in L.
    rewrite length_map, length_seq in L. lia.
Qed.

(** X11.  The class is registered with the SDK exactly when [initialise]
    returns true, and the registration is then its last call. *)
Theorem registered_iff_initialised params (s : System TOther W) :
  let r := init params s in
  (result r = true <-> In USBD_RegisterClass (calls r))
  /\ (In USBD_RegisterClass (calls r) -> last (calls r) = Some USBD_RegisterClass).
Proof.
  intros r. pose proof (initialise_runs params s) as R. fold r in R.
  cbv zeta in R. destruct (result r).
  - destruct R as (-> & _). split; [split |]; intros _;
      [apply in_app_iff; right; left | | apply last_snoc]; reflexivity.
  - destruct R as (H & _).
    destruct (short_circuit_calls _ _ _ H) as (_ & N & _).
    split; [split; [discriminate | contradiction] | contradiction].
Qed.

End Properties.

(** ** The properties on the concrete instance *)

(** The three scenarios of the specification. *)
Example scenario_SET_LINE_CODING :
  Sample.setup Sample.SET_LINE_CODING Sample.fresh
  = (tt,
     set_commandSize unit 7 (set_opCode unit 0x20 Sample.fresh),
     [USBD_CtlPrepareRx commandBuffer_ptr 7]).
Proof. reflexivity. Qed.

Example scenario_GET_LINE_CODING :
  Sample.setup Sample.GET_LINE_CODING Sample.fresh
  = (tt,
     set_commandBuffer [1; 2; 3; 4; 5; 6; 7; 0; 0; 0; 0; 0; 0; 0; 0; 0] Sample.fresh,
     [raiseEvent {| opcode := 0x21; data := commandBuffer_ptr; size := 7 |};
      USBD_CtlSendData commandBuffer_ptr 7]).
Proof. reflexivity. Qed.

Example scenario_SEND_BREAK :
  Sample.setup Sample.SEND_BREAK Sample.fresh
  = (tt, Sample.fresh,
     [raiseEvent {| opcode := 0x23; data := nullptr; size := 0 |}]).
Proof. reflexivity. Qed.

(** C1 fails as stated: a class request with [wLength = 17] is not
    rejected.  Host-to-device, 17 becomes the pending length and a
    receive of 17 bytes is armed on the 16 byte buffer; device-to-host,
    17 bytes are sent from it. *)
Lemma oversized_request_not_rejected :
  wf_request Sample.oversized_out
  /\ is_class_request Sample.USB_REQ_TYPE_MASK Sample.USB_REQ_TYPE_CLASS
       Sample.oversized_out
  /\ MAX_COMMAND_EP_PACKET_SIZE < wLength Sample.oversized_out
  /\ _commandSize Sample.fresh <= MAX_COMMAND_EP_PACKET_SIZE
  /\ Sample.setup Sample.oversized_out Sample.fresh
     = (tt, set_commandSize unit 17 (set_opCode unit 0x20 Sample.fresh),
        [USBD_CtlPrepareRx commandBuffer_ptr 17])
  /\ ~ stays_within_buffer Sample.USB_REQ_TYPE_MASK Sample.USB_REQ_TYPE_CLASS
         unit Sample.counting Sample.oversized_out Sample.fresh
  /\ ~ stays_within_buffer Sample.USB_REQ_TYPE_MASK Sample.USB_REQ_TYPE_CLASS
         unit Sample.counting Sample.oversized_in Sample.fresh.
Proof.
  split; [evaluated |]. split; [reflexivity |]. split; [reflexivity |].
  split; [evaluated |]. split; [reflexivity |].
  unfold stays_within_buffer. split.
  - intros [H _]. vm_compute in H. apply H. reflexivity.
  - intros [_ H]. inversion H as [| ? ? _ H']. subst.
    inversion H' as [| ? ? Hle _]. subst.
    vm_compute in Hle. apply Hle. reflexivity.
Qed.

(** C2 fails as stated: for a device-to-host class request with
    [wLength = 17] the event and the send name the command buffer, which
    holds 16 bytes, not 17. *)
Lemma oversized_response_buffer_too_small :
  is_class_request Sample.USB_REQ_TYPE_MASK Sample.USB_REQ_TYPE_CLASS
    Sample.oversized_in
  /\ 0 < wLength Sample.oversized_in
  /\ device_to_host Sample.oversized_in
  /\ calls (Sample.setup Sample.oversized_in Sample.fresh)
     = [raiseEvent {| opcode := 0x21; data := commandBuffer_ptr; size := 17 |};
        USBD_CtlSendData commandBuffer_ptr 17]
  /\ capacity commandBuffer_ptr = 16
  /\ ~ responds_from_large_enough_buffer Sample.USB_REQ_TYPE_MASK
         Sample.USB_REQ_TYPE_CLASS unit Sample.counting
         Sample.oversized_in Sample.fresh.
Proof.
  split; [reflexivity |]. split; [reflexivity |]. split; [evaluated |].
  split; [reflexivity |]. split; [reflexivity |].
  intros (e & Hcalls & _ & Hcap & _).
  change (calls _) with
    [raiseEvent {| opcode := 0x21; data := commandBuffer_ptr; size := 17 |};
     USBD_CtlSendData commandBuffer_ptr 17] in Hcalls.
  injection Hcalls as He _. subst e.
  vm_compute in Hcap. apply Hcap. reflexivity.
Qed.

(** C3 at a failing input: a host-to-device class request with
    [wLength = 256].  No event is raised, the op code is recorded and a
    receive of 256 bytes is armed, but the pending length recorded in
    the [uint8_t] member is 0, not the 256 of the setup packet. *)
Theorem wide_out_pending_length_truncated :
  let r := Sample.setup Sample.wide_out Sample.fresh in
  wf_request Sample.wide_out
  /\ is_class_request Sample.USB_REQ_TYPE_MASK Sample.USB_REQ_TYPE_CLASS
       Sample.wide_out
  /\ host_to_device Sample.wide_out
  /\ events_of (calls r) = []
  /\ calls r = [USBD_CtlPrepareRx commandBuffer_ptr 256]
  /\ _opCode (final r) = bRequest Sample.wide_out
  /\ _commandSize (final r) = 0
  /\ _commandSize (final r) <> wLength Sample.wide_out.
Proof. evaluated. Qed.

(** *** The general theorems at concrete inputs *)

(** [setup_lengths_unchecked] at SET_LINE_CODING (7 bytes, which fit),
    and at the 17 byte requests of either direction, handled on a device
    whose pending length is already 17. *)
Lemma setup_lengths_unchecked_witness :
  let d17 := final (Sample.setup Sample.oversized_out Sample.fresh) in
  stays_within_buffer Sample.USB_REQ_TYPE_MASK Sample.USB_REQ_TYPE_CLASS
    unit Sample.counting Sample.SET_LINE_CODING Sample.fresh
  /\ _commandSize d17 = 17
  /\ calls (Sample.setup Sample.oversized_out d17)
     = [USBD_CtlPrepareRx commandBuffer_ptr 17]
  /\ calls (Sample.setup Sample.oversized_in d17)
     = [raiseEvent {| opcode := 0x21; data := commandBuffer_ptr; size := 17 |};
        USBD_CtlSendData commandBuffer_ptr 17].
Proof.
  split; [| split; [reflexivity | split]].
  - refine (proj1 (proj2
      (setup_lengths_unchecked Sample.USB_REQ_TYPE_MASK Sample.USB_REQ_TYPE_CLASS
         unit Sample.counting Sample.SET_LINE_CODING Sample.fresh _)) _ _ _);
      evaluated.
  - refine (proj1 (proj2 (proj2 (proj2
      (setup_lengths_unchecked Sample.USB_REQ_TYPE_MASK Sample.USB_REQ_TYPE_CLASS
         unit Sample.counting Sample.oversized_out
         (final (Sample.setup Sample.oversized_out Sample.fresh)) _)) _)) _);
      evaluated.
  - refine (proj1 (proj2 (proj2
      (setup_lengths_unchecked Sample.USB_REQ_TYPE_MASK Sample.USB_REQ_TYPE_CLASS
         unit Sample.counting Sample.oversized_in
         (final (Sample.setup Sample.oversized_out Sample.fresh)) _)) _) _);
      evaluated.
Defined.

(** [in_request_event_then_send] at GET_LINE_CODING. *)
Lemma in_request_event_then_send_witness :
  calls (Sample.setup Sample.GET_LINE_CODING Sample.fresh)
  = [raiseEvent {| opcode := 0x21; data := commandBuffer_ptr; size := 7 |};
     USBD_CtlSendData commandBuffer_ptr 7].
Proof.
  refine (proj1
    (in_request_event_then_send Sample.USB_REQ_TYPE_MASK Sample.USB_REQ_TYPE_CLASS
       unit Sample.counting Sample.GET_LINE_CODING Sample.fresh _ _ _));
    evaluated.
Defined.

(** [zero_length_request_event_only] at SEND_BREAK. *)
Lemma zero_length_request_event_only_witness :
  calls (Sample.setup Sample.SEND_BREAK Sample.fresh)
  = [raiseEvent {| opcode := 0x23; data := nullptr; size := 0 |}].
Proof.
  refine (proj1
    (zero_length_request_event_only Sample.USB_REQ_TYPE_MASK
       Sample.USB_REQ_TYPE_CLASS unit Sample.counting Sample.SEND_BREAK
       Sample.fresh _ _));
    evaluated.
Defined.

(** [non_class_request_ignored] at the standard request GET_DESCRIPTOR. *)
Lemma non_class_request_ignored_witness :
  Sample.setup Sample.GET_DESCRIPTOR Sample.fresh = (tt, Sample.fresh, []).
Proof.
  refine (proj1
    (non_class_request_ignored Sample.USB_REQ_TYPE_MASK Sample.USB_REQ_TYPE_CLASS
       Sample.EndpointDescriptor_IN Sample.EndpointDescriptor_INTERRUPT
       unit Sample.counting Sample.GET_DESCRIPTOR Sample.fresh _));
    evaluated.
Defined.

(** [lifecycle_events]: after an initialisation with no features, the
    endpoint is opened with the fields of the descriptor. *)
Lemma lifecycle_events_witness :
  let ep := the_commandEndpoint (fst (final (Sample.init [] 16 (Sample.fresh, 0%nat)))) in
  calls (Sample.event CLASS_INIT Sample.fresh)
  = [USBD_LL_OpenEP (bEndpointAddress ep) (bmAttributes ep) (wMaxPacketSize ep)]
  /\ calls (Sample.event CLASS_DEINIT Sample.fresh)
     = [USBD_LL_CloseEP (bEndpointAddress ep)].
Proof.
  refine (proj2 (proj2 (proj2
    (lifecycle_events Sample.USB_REQ_TYPE_MASK Sample.USB_REQ_TYPE_CLASS
       Sample.EndpointDescriptor_IN Sample.EndpointDescriptor_INTERRUPT
       unit unit nat Sample.counting Sample.succeeds Sample.succeeds []
       Sample.fresh)))
    {| upstream := tt; cdc_cmd_poll_interval := 16 |} (Sample.fresh, 0%nat) _).
  reflexivity.
Defined.

(** [initialise_fails_fast] with three features of which the second
    fails: the third is not called and the device is untouched. *)
Lemma initialise_fails_fast_witness :
  let r := Sample.init [Sample.succeeds; Sample.fails; Sample.succeeds] 16
             (Sample.fresh, 0%nat) in
  result r = false
  /\ last (calls r) = Some (failed (Feature_ 1))
  /\ ~ In USBD_RegisterClass (calls r)
  /\ fst (final r) = Sample.fresh.
Proof.
  refine (proj1
    (initialise_fails_fast Sample.EndpointDescriptor_IN
       Sample.EndpointDescriptor_INTERRUPT unit unit nat
       Sample.succeeds Sample.succeeds
       [Sample.succeeds; Sample.fails; Sample.succeeds]
       {| upstream := tt; cdc_cmd_poll_interval := 16 |} (Sample.fresh, 0%nat))
    (Feature_ 1) _).
  vm_compute. tauto.
Defined.

(** [initialise_twice] with a feature that initialises only once: the
    second call fails and the descriptor is as the first call left it. *)
Lemma initialise_twice_witness :
  let r1 := Sample.init [Sample.once] 10 (Sample.fresh, 0%nat) in
  let r2 := Sample.init [Sample.once] 10 (final r1) in
  result r1 = true
  /\ result r2 = false
  /\ _configurationDescriptor (fst (final r2))
     = _configurationDescriptor (fst (final r1)).
Proof.
  split; [reflexivity |]. split; [reflexivity |].
  refine (proj2 (proj2
    (initialise_twice Sample.EndpointDescriptor_IN
       Sample.EndpointDescriptor_INTERRUPT unit unit nat
       Sample.succeeds Sample.succeeds [Sample.once]
       {| upstream := tt; cdc_cmd_poll_interval := 10 |} (Sample.fresh, 0%nat) _))).
  reflexivity.
Defined.

(** [descriptor_populated_then_immutable] with the default parameters:
    address 0x81, interrupt, 16 byte packets, interval 16. *)
Lemma descriptor_populated_then_immutable_witness :
  the_commandEndpoint
    (fst (final (Sample.init [Sample.succeeds]
                   (cdc_cmd_poll_interval (Parameters_ctor tt))
                   (Sample.fresh, 0%nat))))
  = {| bEndpointAddress := 0x81; bmAttributes := 3;
       wMaxPacketSize := 16; bInterval := 16 |}.
Proof.
  refine (proj1
    (descriptor_populated_then_immutable Sample.USB_REQ_TYPE_MASK
       Sample.USB_REQ_TYPE_CLASS Sample.EndpointDescriptor_IN
       Sample.EndpointDescriptor_INTERRUPT unit unit nat Sample.counting
       Sample.succeeds Sample.succeeds [Sample.succeeds]
       (Parameters_ctor tt) (Sample.fresh, 0%nat) _)).
  reflexivity.
Defined.

(** [pending_fields_frame] at GET_LINE_CODING, after a SET_LINE_CODING
    has recorded its op code and length. *)
Lemma pending_fields_frame_witness :
  let d := final (Sample.setup Sample.SET_LINE_CODING Sample.fresh) in
  let r := Sample.setup Sample.GET_LINE_CODING d in
  (_opCode d = 0x20 /\ _commandSize d = 7)
  /\ (_opCode (final r) = _opCode d /\ _commandSize (final r) = _commandSize d).
Proof.
  split; [split; reflexivity |].
  refine (pending_fields_frame Sample.USB_REQ_TYPE_MASK Sample.USB_REQ_TYPE_CLASS
            unit Sample.counting Sample.GET_LINE_CODING
            (final (Sample.setup Sample.SET_LINE_CODING Sample.fresh)) _ _).
  - reflexivity.
  - right. evaluated.
Defined.

(** *** The further theorems at concrete inputs *)

(** [recipient_bits_ignored]: SET_LINE_CODING to an interface and to an
    endpoint. *)
Lemma recipient_bits_ignored_witness :
  Sample.setup Sample.SET_LINE_CODING Sample.fresh
  = Sample.setup Sample.SET_LINE_CODING_to_endpoint Sample.fresh.
Proof.
  refine (recipient_bits_ignored Sample.USB_REQ_TYPE_MASK Sample.USB_REQ_TYPE_CLASS
            unit Sample.counting Sample.SET_LINE_CODING
            Sample.SET_LINE_CODING_to_endpoint Sample.fresh _ _ _ _);
    reflexivity.
Defined.

(** [second_request_overwrites]: SET_COMM_FEATURE right after
    SET_LINE_CODING. *)
Lemma second_request_overwrites_witness :
  final (Sample.setup Sample.SET_COMM_FEATURE
           (final (Sample.setup Sample.SET_LINE_CODING Sample.fresh)))
  = final (Sample.setup Sample.SET_COMM_FEATURE Sample.fresh).
Proof.
  refine (second_request_overwrites Sample.USB_REQ_TYPE_MASK
            Sample.USB_REQ_TYPE_CLASS unit Sample.counting
            Sample.SET_LINE_CODING Sample.SET_COMM_FEATURE Sample.fresh _ _);
    evaluated.
Defined.

(** [pending_is_last_recorded]: two recording requests, then a
    device-to-host request, a request without data and a deinit. *)
Lemma pending_is_last_recorded_witness :
  let d := Sample.after
             ([CLASS_INIT; CLASS_SETUP Sample.SET_LINE_CODING]
              ++ CLASS_SETUP Sample.SET_COMM_FEATURE
              :: [CLASS_SETUP Sample.GET_LINE_CODING;
                  CLASS_SETUP Sample.SEND_BREAK; CLASS_DEINIT])
             Sample.fresh in
  _opCode d = 0x02 /\ _commandSize d = wrap8 2.
Proof.
  refine (pending_is_last_recorded Sample.USB_REQ_TYPE_MASK
            Sample.USB_REQ_TYPE_CLASS Sample.EndpointDescriptor_IN
            Sample.EndpointDescriptor_INTERRUPT unit Sample.counting
            [CLASS_INIT; CLASS_SETUP Sample.SET_LINE_CODING]
            Sample.SET_COMM_FEATURE
            [CLASS_SETUP Sample.GET_LINE_CODING;
             CLASS_SETUP Sample.SEND_BREAK; CLASS_DEINIT]
            Sample.fresh _ _).
  - evaluated.
  - constructor; [| constructor; [| constructor; [| constructor]]].
    + intros (_ & _ & H). vm_compute in H. discriminate H.
    + intros (_ & H & _). apply H. reflexivity.
    + intros [].
Defined.

(** [op_code_zero_until_recorded]: construction over stale storage, then
    an init, a device-to-host request and a request without data. *)
Lemma op_code_zero_until_recorded_witness :
  _opCode Sample.stale = 0x55
  /\ _opCode (Sample.after
                [CLASS_INIT; CLASS_SETUP Sample.GET_LINE_CODING;
                 CLASS_SETUP Sample.SEND_BREAK]
                (fst (CdcDevice_ctor unit Sample.stale))) = 0.
Proof.
  split; [reflexivity |].
  refine (op_code_zero_until_recorded Sample.USB_REQ_TYPE_MASK
            Sample.USB_REQ_TYPE_CLASS Sample.EndpointDescriptor_IN
            Sample.EndpointDescriptor_INTERRUPT unit Sample.counting
            [CLASS_INIT; CLASS_SETUP Sample.GET_LINE_CODING;
             CLASS_SETUP Sample.SEND_BREAK]
            Sample.stale _).
  constructor; [| constructor; [| constructor; [| constructor]]].
  - intros [].
  - intros (_ & _ & H). vm_compute in H. discriminate H.
  - intros (_ & H & _). apply H. reflexivity.
Defined.
